(** * sveltekit-api-fetch: the handler-schema extractor

    A shallow embedding of the type generator of sveltekit-api-fetch
    ([generateUrlType], [getSchemaFromFunction], [getSchema],
    [getReturnType], [parseSchema], [getZodTypeToString]) together with the
    part of the TypeScript compiler API those functions call: syntax nodes
    and [ts.forEachChild], type objects and the type checker. *)

From Stdlib Require Import List String Ascii ZArith Bool Lia.
Import ListNotations.
Local Open Scope string_scope.

Set Implicit Arguments.
Set Warnings "-register-all".

(** ** Syntax nodes

    One constructor per syntax kind the extractor tests for or reads a
    property of; everything else is an opaque expression or statement that
    only has children.  A function-like declaration keeps its parameters and
    its body: its remaining children (modifiers, name, type parameters,
    return type annotation) are, like the parameters, never blocks, and the
    extractor's callbacks ignore every child that is not a block. *)

Inductive Node : Type :=
| Identifier (text : string)
| OtherExpression (children : list Node)
| AwaitExpression (expression : Node)
| CallExpression (expression : Node) (arguments : list Node)
| VariableDeclaration (name : string) (initializer : option Node)
| VariableDeclarationList (declarations : list Node)
| VariableStatement (declarationList : Node)
| ReturnStatement (expression : option Node)
| ExpressionStatement (expression : Node)
| Block (statements : list Node)
| OtherStatement (children : list Node)
| ParameterDeclaration (name : string)
| FunctionLike (parameters : list string) (body : option Node).

Definition optionNode (o : option Node) : list Node :=
  match o with
  | Some n => [n]
  | None => []
  end.

(** The children [ts.forEachChild] visits, in its order. *)
Definition childrenOf (node : Node) : list Node :=
  match node with
  | Identifier _ => []
  | OtherExpression children => children
  | AwaitExpression expression => [expression]
  | CallExpression expression arguments => expression :: arguments
  | VariableDeclaration name initializer => Identifier name :: optionNode initializer
  | VariableDeclarationList declarations => declarations
  | VariableStatement declarationList => [declarationList]
  | ReturnStatement expression => optionNode expression
  | ExpressionStatement expression => [expression]
  | Block statements => statements
  | OtherStatement children => children
  | ParameterDeclaration name => [Identifier name]
  | FunctionLike parameters body => map ParameterDeclaration parameters ++ optionNode body
  end.

Definition isBlock (node : Node) : bool :=
  match node with
  | Block _ => true
  | _ => false
  end.

(** ** [ts.forEachChild]

    The callback is invoked on each child in order; the first truthy value
    it returns stops the iteration and is the result, and a falsy value
    ([undefined]) lets the iteration go on to the next child.  The results
    of the extractor's callbacks are syntax nodes or [undefined], so a
    result is truthy exactly when it is [Some]. *)

Section ForEachChild.
Variable T : Type.

Fixpoint visitNodes (cbNode : Node -> option T) (nodes : list Node) : option T :=
  match nodes with
  | [] => None
  | node :: rest =>
      match cbNode node with
      | Some result => Some result
      | None => visitNodes cbNode rest
      end
  end.

Definition forEachChild (node : Node) (cbNode : Node -> option T) : option T :=
  visitNodes cbNode (childrenOf node).

(** A callback that assigns to a variable [S] of the enclosing function:
    the variable is threaded through the calls. *)
Variable S : Type.

Fixpoint visitNodesSt (cbNode : Node -> S -> S * option T) (nodes : list Node) (s : S)
  : S * option T :=
  match nodes with
  | [] => (s, None)
  | node :: rest =>
      match cbNode node s with
      | (s', Some result) => (s', Some result)
      | (s', None) => visitNodesSt cbNode rest s'
      end
  end.

Definition forEachChildSt (node : Node) (cbNode : Node -> S -> S * option T) (s : S)
  : S * option T :=
  visitNodesSt cbNode (childrenOf node) s.
End ForEachChild.

(** ** getSchema *)

Definition getSchema (func : Node) : option Node :=
  forEachChild func (fun node =>
    if isBlock node then
      forEachChild node (fun node =>
        match node with
        | VariableStatement declarationList =>
            forEachChild declarationList (fun declaration =>
              match declaration with
              | VariableDeclaration _ (Some (AwaitExpression (CallExpression _ arguments))) =>
                  nth_error arguments 1
              | _ => None
              end)
        | _ => None
        end)
    else None).

(** ** Type objects and the type checker

    A type object answers [getFlags], [getBaseTypes] and [getProperty]
    itself; the checker answers [getTypeArguments], [getPropertiesOfType]
    and [getTypeOfSymbol] from it.  A property symbol is its name with its
    type.  [getBaseTypes] is [undefined] for a type that is neither a class
    nor an interface.  A type is given with the types reachable from it, as
    a finite tree. *)

Inductive Type_ : Type :=
  mkType {
    getFlags : Z;
    getBaseTypes : option (list Type_);
    typeArguments : list Type_;
    propertiesOfType : list (string * Type_);
    getProperty : string -> option (string * Type_)
  }.

Definition Symbol : Type := (string * Type_)%type.

Definition getName (symbol : Symbol) : string := fst symbol.

(** [ts.TypeFlags.Object], bit 19. *)
Definition TypeFlags_Object : Z := 524288.

(** The queries whose answers depend on the program under analysis.
    [typeToString] receives whatever array element the caller indexed, so
    its argument may be [undefined]. *)
Record TypeChecker : Type :=
  mkTypeChecker {
    getTypeAtLocation : Node -> Type_;
    getAnyType : Type_;
    getVoidType : Type_;
    typeToString : option Type_ -> string
  }.

Definition getTypeArguments (typeChecker : TypeChecker) (type : Type_) : list Type_ :=
  typeArguments type.

Definition getPropertiesOfType (typeChecker : TypeChecker) (type : Type_) : list Symbol :=
  propertiesOfType type.

Definition getTypeOfSymbol (typeChecker : TypeChecker) (symbol : Symbol) : Type_ :=
  snd symbol.

(** The record [getSchemaFromFunction] builds and [parseSchema] reads.
    [parseSchema] tests both fields for truthiness, so both are optional. *)
Record SchemaDescriptor : Type :=
  mkDescriptor {
    schema : option Node;
    returnType : option Type_
  }.

(** ** getReturnType and getSchemaFromFunction

    [getText] is the host's source text of a node. *)

Section ReturnType.
Variable getText : Node -> string.

(** The callback on the statements of the body: it assigns to
    [returnType] and returns nothing. *)
Definition visitStatement (typeChecker : TypeChecker) (child : Node)
    (returnType : option Type_) : option Type_ * option unit :=
  match child with
  | ReturnStatement (Some expression) =>
      let returnType :=
        match expression with
        | CallExpression calledFunction arguments =>
            let calledFunctionText := getText calledFunction in
            if calledFunctionText =? "json" then
              match nth_error arguments 0 with
              | Some jsonArgument => Some (getTypeAtLocation typeChecker jsonArgument)
              | None => returnType
              end
            else returnType
        | _ => returnType
        end in
      let returnType :=
        match returnType with
        | None => Some (getAnyType typeChecker)
        | Some _ => returnType
        end in
      (returnType, None)
  | _ => (returnType, None)
  end.

Definition returnTypeVariable (typeChecker : TypeChecker) (func : Node) : option Type_ :=
  fst (forEachChildSt func (fun node returnType =>
    if isBlock node then
      (fst (forEachChildSt node (visitStatement typeChecker) returnType), None)
    else (returnType, @None unit)) None).

Definition getReturnType (typeChecker : TypeChecker) (func : Node) : Type_ :=
  match returnTypeVariable typeChecker func with
  | Some returnType => returnType
  | None => getVoidType typeChecker
  end.

Definition getSchemaFromFunction (typeChecker : TypeChecker) (func : Node)
  : SchemaDescriptor :=
  {| schema := getSchema func;
     returnType := Some (getReturnType typeChecker func) |}.
End ReturnType.

(** ** Completions

    A call either returns a value or throws: the one exception the
    extractor can raise is the [TypeError] of reading a property of
    [undefined]. *)

Inductive Outcome (A : Type) : Type :=
| Ok (value : A)
| TypeError.

Arguments Ok {A} value.
Arguments TypeError {A}.

Definition bind {A B : Type} (c : Outcome A) (k : A -> Outcome B) : Outcome B :=
  match c with
  | Ok value => k value
  | TypeError => TypeError
  end.

Notation "x <- c ;; k" := (bind c (fun x => k))
  (at level 61, c at next level, right associativity).

(** [Array.prototype.map] with a callback that may throw. *)
Fixpoint mapOutcome {A B : Type} (f : A -> Outcome B) (l : list A) : Outcome (list B) :=
  match l with
  | [] => Ok []
  | x :: rest =>
      y <- f x ;;
      ys <- mapOutcome f rest ;;
      Ok (y :: ys)
  end.

(** [Array.prototype.join]. *)
Fixpoint join (separator : string) (l : list string) : string :=
  match l with
  | [] => ""
  | [x] => x
  | x :: rest => x ++ separator ++ join separator rest
  end.

(** ** generateUrlType

    [fields] is the object as [Object.entries] lists it.  A template
    literal renders [undefined] as the text [undefined]. *)

Definition isDefined {A : Type} (o : option A) : bool :=
  match o with
  | Some _ => true
  | None => false
  end.

Definition templateText (o : option string) : string :=
  match o with
  | Some text => text
  | None => "undefined"
  end.

Definition generateUrlType (fields : list (string * option string)) : string :=
  let entries := filter (fun '(_, type) => isDefined type) fields in
  if (List.length entries =? 0)%nat then "never"
  else "{ " ++ join "; " (map (fun '(name, type) => name ++ ": " ++ templateText type) entries) ++ " }".

(** ** getZodTypeToString *)

(** [type.getBaseTypes()?.[0]] *)
Definition firstBaseType (type : Type_) : option Type_ :=
  match getBaseTypes type with
  | Some baseTypes => nth_error baseTypes 0
  | None => None
  end.

Fixpoint getZodTypeToString (typeChecker : TypeChecker) (type : Type_) : Outcome string :=
  match firstBaseType type with
  | Some zodType =>
      Ok (typeToString typeChecker (nth_error (getTypeArguments typeChecker zodType) 2))
  | None =>
      let zodArguments := getTypeArguments typeChecker type in
      if (List.length zodArguments =? 5)%nat then
        Ok (typeToString typeChecker (nth_error zodArguments 4))
      else if (List.length zodArguments =? 2)%nat then
        match zodArguments with
        | zodArgument0 :: _ =>
            text <- getZodTypeToString typeChecker zodArgument0 ;;
            Ok (text ++ "[]")
        | [] => TypeError
        end
      else
        match zodArguments with
        | zodArgument0 :: _ => getZodTypeToString typeChecker zodArgument0
        | [] => TypeError
        end
  end.

(** The call [getZodTypeToString(typeChecker, zodArguments[i])] on an
    array element that may be missing: the callee first evaluates
    [type.getBaseTypes()], which throws on [undefined]. *)
Definition getZodTypeToStringAt (typeChecker : TypeChecker) (type : option Type_)
  : Outcome string :=
  match type with
  | Some type => getZodTypeToString typeChecker type
  | None => TypeError
  end.

(** ** parseSchema *)

Module Parsed.
Record t : Type :=
  mk {
    body : option string;
    searchParams : option string;
    returnType : option string
  }.
End Parsed.

(** The callback of [.map] on the properties: [null] for the reserved
    property and for a falsy (empty) output type. *)
Definition propertyToString (typeChecker : TypeChecker) (property : Symbol)
  : Outcome (option string) :=
  if getName property =? "searchParams" then Ok None
  else
    outputType <- getZodTypeToString typeChecker (getTypeOfSymbol typeChecker property) ;;
    if outputType =? "" then Ok None
    else Ok (Some (getName property ++ ": " ++ outputType)).

(** [.filter((t) => t !== null)] *)
Fixpoint filterNotNull (l : list (option string)) : list string :=
  match l with
  | [] => []
  | Some text :: rest => text :: filterNotNull rest
  | None :: rest => filterNotNull rest
  end.

Definition parseSchema (typeChecker : TypeChecker) (data : SchemaDescriptor)
    (skipBody : bool) : Outcome Parsed.t :=
  let zodInputType :=
    match schema data with
    | Some schemaNode => Some (getTypeAtLocation typeChecker schemaNode)
    | None => None
    end in
  body <-
    match skipBody, zodInputType with
    | false, Some zodInputType =>
        strings <- mapOutcome (propertyToString typeChecker)
                     (getPropertiesOfType typeChecker zodInputType) ;;
        Ok (Some ("{ " ++ join "; " (filterNotNull strings) ++ " }"))
    | _, _ => Ok None
    end ;;
  let searchParamsSymbol :=
    match zodInputType with
    | Some zodInputType => getProperty zodInputType "searchParams"
    | None => None
    end in
  searchParams <-
    match searchParamsSymbol with
    | Some searchParamsSymbol =>
        let searchParamsType := getTypeOfSymbol typeChecker searchParamsSymbol in
        if (Z.land (getFlags searchParamsType) TypeFlags_Object =? 0)%Z then Ok None
        else
          text <- getZodTypeToString typeChecker searchParamsType ;;
          Ok (Some text)
    | None => Ok None
    end ;;
  let returnType :=
    match returnType data with
    | Some type => Some (typeToString typeChecker (Some type))
    | None => None
    end in
  Ok {| Parsed.body :=
          match body with
          | Some text => if text =? "{  }" then None else body
          | None => body
          end;
        Parsed.searchParams := searchParams;
        Parsed.returnType := returnType |}.

(** ** A mock checker and sample handlers, for evaluation *)

Module Sample.
(** [ts.TypeFlags]: Any = 1, String = 4, Number = 8, Void = 16384. *)
Definition plain (flags : Z) : Type_ :=
  mkType flags None [] [] (fun _ => None).

Definition anyType : Type_ := plain 1.
Definition stringType : Type_ := plain 4.
Definition numberType : Type_ := plain 8.
Definition voidType : Type_ := plain 16384.

Definition render (type : option Type_) : string :=
  match type with
  | None => "any"
  | Some type =>
      match getFlags type with
      | 4%Z => "string"
      | 8%Z => "number"
      | 16384%Z => "void"
      | 524288%Z => "{ q: string }"
      | _ => "any"
      end
  end.

(** The identifier [a] is a string, [b] is a number. *)
Definition typeAt (node : Node) : Type_ :=
  match node with
  | Identifier "a" => stringType
  | Identifier "b" => numberType
  | _ => anyType
  end.

Definition checker : TypeChecker := mkTypeChecker typeAt anyType voidType render.

Definition text (node : Node) : string :=
  match node with
  | Identifier name => name
  | _ => ""
  end.

Definition call (callee : string) (arguments : list string) : Node :=
  CallExpression (Identifier callee) (map Identifier arguments).

(** [const x = await validate(event, s)] *)
Definition validated : Node :=
  VariableStatement (VariableDeclarationList
    [VariableDeclaration "x" (Some (AwaitExpression (call "validate" ["event"; "s"])))]).

Definition returning (callee argument : string) : Node :=
  ReturnStatement (Some (call callee [argument])).

Definition handler (statements : list Node) : Node :=
  FunctionLike ["event"] (Some (Block statements)).

(** A validator class instance: its base type carries the output type
    as third type argument. *)
Definition zodString : Type_ :=
  mkType 524288 (Some [mkType 524288 None [stringType; anyType; stringType] []
                         (fun _ => None)]) [] [] (fun _ => None).

(** An object validator seen through its five type arguments. *)
Definition zodObject : Type_ :=
  mkType 524288 None [anyType; anyType; anyType; anyType; plain 524288] []
    (fun _ => None).

(** An array validator seen through its two type arguments. *)
Definition zodArray : Type_ :=
  mkType 524288 None [zodString; anyType] [] (fun _ => None).

Definition lookup (properties : list Symbol) (name : string) : option Symbol :=
  find (fun property => getName property =? name) properties.

Definition objectType (properties : list Symbol) : Type_ :=
  mkType 524288 None [] properties (lookup properties).

(** The type of [{ name: z.string(), searchParams: z.object(...) }]. *)
Definition schemaType : Type_ :=
  objectType [("name", zodString); ("searchParams", zodObject)].

(** The type of [{ name: "abc" }]: the property is a plain string. *)
Definition plainSchemaType : Type_ :=
  objectType [("name", stringType)].

Definition schemaChecker : TypeChecker :=
  mkTypeChecker
    (fun node =>
       match node with
       | Identifier "s" => schemaType
       | Identifier "p" => plainSchemaType
       | _ => anyType
       end)
    anyType voidType render.

(** What [getSchemaFromFunction] yields for a handler that validates
    against [s] and returns nothing. *)
Definition descriptor : SchemaDescriptor :=
  mkDescriptor (Some (Identifier "s")) (Some voidType).

Definition parsed : Parsed.t :=
  Parsed.mk (Some "{ name: string }") (Some "{ q: string }") (Some "void").
(** What [getSchemaFromFunction] yields for a handler that validates
    against [p], the schema [{ name: "abc" }]. *)
Definition plainDescriptor : SchemaDescriptor :=
  mkDescriptor (Some (Identifier "p")) (Some voidType).

(** The type of the object literal [{ q: "abc" }]: an object type with
    neither base type nor type argument. *)
Definition queryType : Type_ :=
  objectType [("q", stringType)].

(** The type of [{ searchParams: { q: "abc" } }]. *)
Definition querySchemaType : Type_ :=
  objectType [("searchParams", queryType)].

Definition queryChecker : TypeChecker :=
  mkTypeChecker
    (fun node =>
       match node with
       | Identifier "q" => querySchemaType
       | _ => anyType
       end)
    anyType voidType render.

Definition queryDescriptor : SchemaDescriptor :=
  mkDescriptor (Some (Identifier "q")) (Some voidType).
End Sample.

(** ** Reference readings, for the statements below *)

(** The second argument of the awaited call a binding is initialised
    with, if the binding has that form and the call has one. *)
Definition secondArgument (declaration : Node) : list Node :=
  match declaration with
  | VariableDeclaration _ (Some (AwaitExpression (CallExpression _ arguments))) =>
      optionNode (nth_error arguments 1)
  | _ => []
  end.

(** Every schema candidate of a statement list: statement by statement,
    binding by binding. *)
Definition schemaCandidates (statements : list Node) : list Node :=
  flat_map (fun statement =>
              match statement with
              | VariableStatement declarationList =>
                  flat_map secondArgument (childrenOf declarationList)
              | _ => []
              end) statements.

(** A binding initialised with an awaited call. *)
Definition isAwaitCallBinding (declaration : Node) : bool :=
  match declaration with
  | VariableDeclaration _ (Some (AwaitExpression (CallExpression _ _))) => true
  | _ => false
  end.

(** A variable statement with at least one such binding. *)
Definition isQualifyingStatement (statement : Node) : bool :=
  match statement with
  | VariableStatement declarationList =>
      existsb isAwaitCallBinding (childrenOf declarationList)
  | _ => false
  end.

(** A return statement that carries an expression. *)
Definition returnsExpression (statement : Node) : bool :=
  match statement with
  | ReturnStatement (Some _) => true
  | _ => false
  end.

(** A return statement of the form [return json(valueExpr, ...)]. *)
Definition isJsonReturn (getText : Node -> string) (statement : Node) : bool :=
  match statement with
  | ReturnStatement (Some (CallExpression calledFunction (_ :: _))) =>
      getText calledFunction =? "json"
  | _ => false
  end.

(** The fields whose value is defined, in order. *)
Fixpoint definedFields (fields : list (string * option string)) : list (string * string) :=
  match fields with
  | [] => []
  | (name, Some type) :: rest => (name, type) :: definedFields rest
  | (_, None) :: rest => definedFields rest
  end.

Definition fieldText (field : string * string) : string :=
  fst field ++ ": " ++ snd field.

(** The properties that reach the body: not the reserved one, and with a
    non-empty unwrapped type. *)
Fixpoint bodyFields (typeChecker : TypeChecker) (properties : list Symbol)
  : list (string * string) :=
  match properties with
  | [] => []
  | property :: rest =>
      if getName property =? "searchParams" then bodyFields typeChecker rest
      else
        match getZodTypeToString typeChecker (getTypeOfSymbol typeChecker property) with
        | Ok outputType =>
            if outputType =? "" then bodyFields typeChecker rest
            else (getName property, outputType) :: bodyFields typeChecker rest
        | TypeError => bodyFields typeChecker rest
        end
  end.

(** One statement's effect on the variable [returnType] of [getReturnType]. *)
Definition assignment (getText : Node -> string) (typeChecker : TypeChecker)
    (returnType : option Type_) (child : Node) : option Type_ :=
  fst (visitStatement getText typeChecker child returnType).

(** The two fallible steps of [parseSchema], named for the proofs. *)
Definition inputType (typeChecker : TypeChecker) (data : SchemaDescriptor) : option Type_ :=
  match schema data with
  | Some schemaNode => Some (getTypeAtLocation typeChecker schemaNode)
  | None => None
  end.

Definition bodyStep (typeChecker : TypeChecker) (zodInputType : option Type_)
    (skipBody : bool) : Outcome (option string) :=
  match skipBody, zodInputType with
  | false, Some zodInputType =>
      strings <- mapOutcome (propertyToString typeChecker)
                   (getPropertiesOfType typeChecker zodInputType) ;;
      Ok (Some ("{ " ++ join "; " (filterNotNull strings) ++ " }"))
  | _, _ => Ok None
  end.

Definition searchParamsStep (typeChecker : TypeChecker) (zodInputType : option Type_)
  : Outcome (option string) :=
  match zodInputType with
  | Some zodInputType =>
      match getProperty zodInputType "searchParams" with
      | Some searchParamsSymbol =>
          let searchParamsType := getTypeOfSymbol typeChecker searchParamsSymbol in
          if (Z.land (getFlags searchParamsType) TypeFlags_Object =? 0)%Z then Ok None
          else
            text <- getZodTypeToString typeChecker searchParamsType ;;
            Ok (Some text)
      | None => Ok None
      end
  | None => Ok None
  end.

Definition emptyRecordToAbsent (body : option string) : option string :=
  match body with
  | Some text => if text =? "{  }" then None else body
  | None => body
  end.

(** The argument of a statement of the form [return json(valueExpr, ...)]. *)
Definition jsonArgument (getText : Node -> string) (statement : Node) : option Node :=
  match statement with
  | ReturnStatement (Some (CallExpression calledFunction (valueExpr :: _))) =>
      if getText calledFunction =? "json" then Some valueExpr else None
  | _ => None
  end.

(** The argument of the last such statement of a list, read from its end. *)
Fixpoint lastJsonArgument (getText : Node -> string) (statements : list Node)
  : option Node :=
  match statements with
  | [] => None
  | statement :: rest =>
      match lastJsonArgument getText rest with
      | Some valueExpr => Some valueExpr
      | None => jsonArgument getText statement
      end
  end.

(** Where the unwrapper ends: it follows first type arguments through the
    types that have no base type and not exactly five type arguments. *)
Fixpoint unwrapTarget (type : Type_) : Type_ :=
  match firstBaseType type with
  | Some _ => type
  | None =>
      if (List.length (typeArguments type) =? 5)%nat then type
      else
        match typeArguments type with
        | first :: _ => unwrapTarget first
        | [] => type
        end
  end.

(** The number of types with exactly two type arguments on that way. *)
Fixpoint arrayDepth (type : Type_) : nat :=
  match firstBaseType type with
  | Some _ => 0
  | None =>
      if (List.length (typeArguments type) =? 5)%nat then 0
      else
        match typeArguments type with
        | first :: _ =>
            ((if (List.length (typeArguments type) =? 2)%nat then 1 else 0)
             + arrayDepth first)%nat
        | [] => 0
        end
  end.

Fixpoint arraySuffix (depth : nat) : string :=
  match depth with
  | O => ""
  | S depth => arraySuffix depth ++ "[]"
  end.

(** What the unwrapper reads off the type it ends at. *)
Definition targetText (typeChecker : TypeChecker) (target : Type_) : Outcome string :=
  match firstBaseType target with
  | Some zodType => Ok (typeToString typeChecker (nth_error (typeArguments zodType) 2))
  | None =>
      match typeArguments target with
      | [] => TypeError
      | _ :: _ => Ok (typeToString typeChecker (nth_error (typeArguments target) 4))
      end
  end.


(** ** The unwrapper on the checker's own type objects

    The type objects of a real checker form a graph: the alias
    [type R = R[]] is its own first type argument.  Here a type is a handle,
    the checker answers the queries on handles, and a call needs a stack
    frame: with none left it throws a [RangeError]. *)

Module Graph.
Inductive Completion (A : Type) : Type :=
| Returned (value : A)
| ThrownTypeError
| ThrownRangeError.

Arguments Returned {A} value.
Arguments ThrownTypeError {A}.
Arguments ThrownRangeError {A}.

Record Checker (Handle : Type) : Type :=
  mkChecker {
    getBaseTypes : Handle -> option (list Handle);
    getTypeArguments : Handle -> list Handle;
    typeToString : option Handle -> string
  }.

Arguments getBaseTypes {Handle} _ _.
Arguments getTypeArguments {Handle} _ _.
Arguments typeToString {Handle} _ _.

(** [type.getBaseTypes()?.[0]] *)
Definition firstBaseType {Handle : Type} (typeChecker : Checker Handle) (type : Handle)
  : option Handle :=
  match getBaseTypes typeChecker type with
  | Some baseTypes => nth_error baseTypes 0
  | None => None
  end.

(** [stack] is the number of calls the stack still has room for. *)
Fixpoint getZodTypeToString {Handle : Type} (stack : nat) (typeChecker : Checker Handle)
    (type : option Handle) : Completion string :=
  match stack with
  | O => ThrownRangeError
  | S stack =>
      match type with
      | None => ThrownTypeError
      | Some type =>
          match firstBaseType typeChecker type with
          | Some zodType =>
              Returned (typeToString typeChecker
                          (nth_error (getTypeArguments typeChecker zodType) 2))
          | None =>
              let zodArguments := getTypeArguments typeChecker type in
              if (List.length zodArguments =? 5)%nat then
                Returned (typeToString typeChecker (nth_error zodArguments 4))
              else if (List.length zodArguments =? 2)%nat then
                match getZodTypeToString stack typeChecker (nth_error zodArguments 0) with
                | Returned text => Returned (text ++ "[]")
                | thrown => thrown
                end
              else getZodTypeToString stack typeChecker (nth_error zodArguments 0)
          end
      end
  end.

(** [Unwinds typeChecker type steps arrays target]: from [type], [steps]
    first type arguments, each taken from a type with no base type and a
    number of type arguments other than none and five, lead to [target];
    [arrays] of the types passed have exactly two type arguments; and
    [target] has a base type, or exactly five type arguments, or none. *)
Inductive Unwinds {Handle : Type} (typeChecker : Checker Handle)
  : Handle -> nat -> nat -> Handle -> Prop :=
| unwinds_base (target zodType : Handle) :
    firstBaseType typeChecker target = Some zodType ->
    Unwinds typeChecker target 0 0 target
| unwinds_five (target : Handle) :
    firstBaseType typeChecker target = None ->
    List.length (getTypeArguments typeChecker target) = 5%nat ->
    Unwinds typeChecker target 0 0 target
| unwinds_none (target : Handle) :
    firstBaseType typeChecker target = None ->
    getTypeArguments typeChecker target = [] ->
    Unwinds typeChecker target 0 0 target
| unwinds_step (type first : Handle) (others : list Handle) (steps arrays : nat)
    (target : Handle) :
    firstBaseType typeChecker type = None ->
    getTypeArguments typeChecker type = first :: others ->
    List.length (first :: others) <> 5%nat ->
    Unwinds typeChecker first steps arrays target ->
    Unwinds typeChecker type (S steps)
      ((if (List.length (first :: others) =? 2)%nat then 1 else 0) + arrays) target.

(** What the unwrapper reads off the type it ends at. *)
Definition targetText {Handle : Type} (typeChecker : Checker Handle) (target : Handle)
  : Completion string :=
  match firstBaseType typeChecker target with
  | Some zodType =>
      Returned (typeToString typeChecker
                  (nth_error (getTypeArguments typeChecker zodType) 2))
  | None =>
      match getTypeArguments typeChecker target with
      | [] => ThrownTypeError
      | _ :: _ =>
          Returned (typeToString typeChecker
                      (nth_error (getTypeArguments typeChecker target) 4))
      end
  end.

Definition withSuffix (text : Completion string) (suffix : string) : Completion string :=
  match text with
  | Returned text => Returned (text ++ suffix)
  | thrown => thrown
  end.

End Graph.

(** The finite trees above, seen as type objects of such a checker. *)
Definition treeChecker (typeChecker : TypeChecker) : Graph.Checker Type_ :=
  Graph.mkChecker getBaseTypes typeArguments (typeToString typeChecker).

Definition completion {A : Type} (outcome : Outcome A) : Graph.Completion A :=
  match outcome with
  | Ok value => Graph.Returned value
  | TypeError => Graph.ThrownTypeError
  end.

(** * Properties *)

(** ** The traversal *)

Lemma visitNodes_parameters (T : Type) (cbNode : Node -> option T)
    (parameters : list string) (rest : list Node) :
  (forall name, cbNode (ParameterDeclaration name) = None) ->
  visitNodes cbNode (map ParameterDeclaration parameters ++ rest) = visitNodes cbNode rest.
Proof.
  intros Hparameter.
  induction parameters as [|name parameters IH]; simpl.
  - reflexivity.
  - rewrite Hparameter. exact IH.
Qed.

Lemma visitNodes_app (T : Type) (cbNode : Node -> option T) (front back : list Node) :
  visitNodes cbNode (front ++ back) =
  match visitNodes cbNode front with
  | Some result => Some result
  | None => visitNodes cbNode back
  end.
Proof.
  induction front as [|node front IH]; simpl.
  - reflexivity.
  - destruct (cbNode node); [reflexivity | exact IH].
Qed.

(** Visiting with a callback whose results are collected by [collect]:
    the first result is the head of everything collected. *)
Lemma visitNodes_flat_map (T : Type) (cbNode : Node -> option T)
    (collect : Node -> list T) (nodes : list Node) :
  (forall node, cbNode node = hd_error (collect node)) ->
  visitNodes cbNode nodes = hd_error (flat_map collect nodes).
Proof.
  intros Hcollect.
  induction nodes as [|node nodes IH]; simpl.
  - reflexivity.
  - rewrite Hcollect. destruct (collect node) as [|result results]; simpl.
    + exact IH.
    + reflexivity.
Qed.

Lemma getSchema_body (parameters : list string) (statements : list Node) :
  getSchema (FunctionLike parameters (Some (Block statements))) =
  visitNodes (fun node =>
    match node with
    | VariableStatement declarationList =>
        forEachChild declarationList (fun declaration =>
          match declaration with
          | VariableDeclaration _ (Some (AwaitExpression (CallExpression _ arguments))) =>
              nth_error arguments 1
          | _ => None
          end)
    | _ => None
    end) statements.
Proof.
  unfold getSchema, forEachChild at 1. simpl childrenOf.
  rewrite visitNodes_parameters by reflexivity.
  simpl. unfold forEachChild at 1. simpl childrenOf.
  match goal with |- match ?v with _ => _ end = _ => destruct v; reflexivity end.
Qed.

(** C1: when the first statement of the body is a variable statement whose
    first binding is initialised with [await call(a, schemaArg, ...)],
    [getSchema] returns the node [schemaArg]. *)
Theorem getSchema_first_statement
    (parameters : list string) (name : string) (callee a schemaArg : Node)
    (more declarations rest : list Node) :
  getSchema
    (FunctionLike parameters
       (Some (Block
          (VariableStatement
             (VariableDeclarationList
                (VariableDeclaration name
                   (Some (AwaitExpression (CallExpression callee (a :: schemaArg :: more))))
                 :: declarations))
           :: rest)))) = Some schemaArg.
Proof.
  rewrite getSchema_body. reflexivity.
Qed.

(** C2, as stated, fails: the first statement of this handler is a plain
    expression statement, not a qualifying variable statement, and
    [getSchema] still returns the schema argument of the second statement. *)
Lemma getSchema_later_statement_found :
  isQualifyingStatement (ExpressionStatement (Sample.call "log" ["event"])) = false /\
  getSchema
    (Sample.handler [ExpressionStatement (Sample.call "log" ["event"]); Sample.validated])
  = Some (Identifier "s") /\
  getSchema
    (Sample.handler [ExpressionStatement (Sample.call "log" ["event"]); Sample.validated])
  <> None.
Proof.
  split; [reflexivity | split; [reflexivity | discriminate]].
Qed.

(** C2, amended: [getSchema] goes on over sibling statements and sibling
    bindings until a callback yields a node; its result is the first schema
    candidate of the body, in statement order and then binding order, and it
    is absent only when the body has no candidate at all. *)
Theorem getSchema_first_candidate (parameters : list string) (statements : list Node) :
  getSchema (FunctionLike parameters (Some (Block statements))) =
  hd_error (schemaCandidates statements).
Proof.
  rewrite getSchema_body. unfold schemaCandidates.
  apply visitNodes_flat_map. intros statement.
  destruct statement; try reflexivity.
  unfold forEachChild. apply visitNodes_flat_map. intros declaration.
  destruct declaration as [| | | | name [initializer|] | | | | | | | |]; try reflexivity.
  destruct initializer as [| |awaited| | | | | | | | | |]; try reflexivity.
  destruct awaited as [| | |callee arguments| | | | | | | | |]; try reflexivity.
  destruct arguments as [|first [|second others]]; reflexivity.
Qed.

(** ** The return type *)

Section ReturnTypeFacts.
Variable getText : Node -> string.
Variable typeChecker : TypeChecker.

Lemma visitStatements_fold (statements : list Node) (returnType : option Type_) :
  visitNodesSt (visitStatement getText typeChecker) statements returnType =
  (fold_left (assignment getText typeChecker) statements returnType, None).
Proof.
  revert returnType.
  induction statements as [|child statements IH]; intros returnType; simpl.
  - reflexivity.
  - unfold assignment at 2.
    destruct (visitStatement getText typeChecker child returnType) as [assigned result] eqn:E.
    assert (result = None) as ->.
    { unfold visitStatement in E.
      destruct child as [| | | | | | |[expression|]| | | | |]; inversion E; reflexivity. }
    simpl. apply IH.
Qed.

Lemma visitNodesSt_parameters (T S : Type) (cbNode : Node -> S -> S * option T)
    (parameters : list string) (rest : list Node) (s : S) :
  (forall name s', cbNode (ParameterDeclaration name) s' = (s', None)) ->
  visitNodesSt cbNode (map ParameterDeclaration parameters ++ rest) s =
  visitNodesSt cbNode rest s.
Proof.
  intros Hparameter.
  induction parameters as [|name parameters IH]; simpl.
  - reflexivity.
  - rewrite Hparameter. exact IH.
Qed.

Lemma returnTypeVariable_body (parameters : list string) (statements : list Node) :
  returnTypeVariable getText typeChecker (FunctionLike parameters (Some (Block statements))) =
  fold_left (assignment getText typeChecker) statements None.
Proof.
  unfold returnTypeVariable, forEachChildSt at 1. simpl childrenOf.
  rewrite visitNodesSt_parameters by reflexivity.
  simpl. unfold forEachChildSt. simpl childrenOf.
  rewrite visitStatements_fold. reflexivity.
Qed.

Lemma assign_other (returnType : option Type_) (child : Node) :
  returnsExpression child = false -> assignment getText typeChecker returnType child = returnType.
Proof.
  destruct child as [| | | | | | |[expression|]| | | | |]; simpl; intros H;
    first [discriminate | reflexivity].
Qed.

Lemma fold_assign_other (statements : list Node) (returnType : option Type_) :
  existsb returnsExpression statements = false ->
  fold_left (assignment getText typeChecker) statements returnType = returnType.
Proof.
  revert returnType.
  induction statements as [|child statements IH]; intros returnType H; simpl in *.
  - reflexivity.
  - apply orb_false_iff in H as [Hchild Hrest].
    rewrite assign_other by exact Hchild. apply IH, Hrest.
Qed.

Lemma assign_json (returnType : option Type_) (callee valueExpr : Node) (more : list Node) :
  getText callee = "json" ->
  assignment getText typeChecker returnType (ReturnStatement (Some (CallExpression callee (valueExpr :: more)))) =
  Some (getTypeAtLocation typeChecker valueExpr).
Proof.
  intros Hjson. unfold assignment. simpl. rewrite Hjson. reflexivity.
Qed.

Lemma assign_not_json (callee : Node) (arguments : list Node) :
  getText callee <> "json" ->
  assignment getText typeChecker None (ReturnStatement (Some (CallExpression callee arguments))) =
  Some (getAnyType typeChecker).
Proof.
  intros Hother. unfold assignment. simpl.
  apply String.eqb_neq in Hother. rewrite Hother. reflexivity.
Qed.
Lemma assign_kept (assigned : Type_) (child : Node) :
  isJsonReturn getText child = false ->
  assignment getText typeChecker (Some assigned) child = Some assigned.
Proof.
  unfold assignment.
  destruct child as [| | | | | | |[expression|]| | | | |]; try reflexivity.
  destruct expression as [| | |calledFunction [|argument arguments]| | | | | | | | |];
    try reflexivity.
  - simpl. destruct (getText calledFunction =? "json"); reflexivity.
  - simpl. intros ->. reflexivity.
Qed.

Lemma fold_assign_kept (statements : list Node) (assigned : Type_) :
  existsb (isJsonReturn getText) statements = false ->
  fold_left (assignment getText typeChecker) statements (Some assigned) = Some assigned.
Proof.
  induction statements as [|child statements IH]; intros H; simpl in *.
  - reflexivity.
  - apply orb_false_iff in H as [Hchild Hrest].
    rewrite assign_kept by exact Hchild. apply IH, Hrest.
Qed.

(** Once a [return json(valueExpr, ...)] has assigned the variable, only
    another such statement changes it: the return statements after the last
    one never assign the "any" type. *)
Lemma getReturnType_last_json (parameters : list string) (before after : list Node)
    (callee valueExpr : Node) (more : list Node) :
  getText callee = "json" ->
  existsb (isJsonReturn getText) after = false ->
  getReturnType getText typeChecker
    (FunctionLike parameters
       (Some (Block (before
                     ++ ReturnStatement (Some (CallExpression callee (valueExpr :: more)))
                     :: after)))) =
  getTypeAtLocation typeChecker valueExpr.
Proof.
  intros Hjson Hafter.
  unfold getReturnType. rewrite returnTypeVariable_body, fold_left_app. simpl.
  rewrite assign_json by exact Hjson.
  rewrite fold_assign_kept by exact Hafter.
  reflexivity.
Qed.
End ReturnTypeFacts.

(** C3, as stated, fails: the body of this handler contains the statement
    [return json(a)], and [getReturnType] does not return the type of [a]
    (a later [return json(b)] assigned the variable again). *)
Lemma getReturnType_json_not_last :
  In (Sample.returning "json" "a") [Sample.returning "json" "a"; Sample.returning "json" "b"] /\
  Sample.text (Identifier "json") = "json" /\
  getReturnType Sample.text Sample.checker
    (Sample.handler [Sample.returning "json" "a"; Sample.returning "json" "b"])
  <> getTypeAtLocation Sample.checker (Identifier "a").
Proof.
  split; [left; reflexivity | split; [reflexivity |]].
  intros H. apply (f_equal getFlags) in H. discriminate H.
Qed.

(** C3, amended: [getSchemaFromFunction] always carries a return type; when
    the last direct return statement of the body that carries an expression
    is [return json(valueExpr, ...)], [getReturnType] is the inferred type
    of [valueExpr]; when the only direct return statement that carries an
    expression calls a function whose text is not [json], it is the "any"
    type; when no direct statement is a return statement carrying an
    expression, it is the "void" type. *)
Theorem getReturnType_cases
    (getText : Node -> string) (typeChecker : TypeChecker) (parameters : list string) :
  (forall func,
     returnType (getSchemaFromFunction getText typeChecker func) <> None) /\
  (forall before callee valueExpr more after,
     getText callee = "json" ->
     existsb returnsExpression after = false ->
     getReturnType getText typeChecker
       (FunctionLike parameters
          (Some (Block (before
                        ++ ReturnStatement (Some (CallExpression callee (valueExpr :: more)))
                        :: after)))) =
     getTypeAtLocation typeChecker valueExpr) /\
  (forall before callee arguments after,
     getText callee <> "json" ->
     existsb returnsExpression before = false ->
     existsb returnsExpression after = false ->
     getReturnType getText typeChecker
       (FunctionLike parameters
          (Some (Block (before
                        ++ ReturnStatement (Some (CallExpression callee arguments))
                        :: after)))) =
     getAnyType typeChecker) /\
  (forall statements,
     existsb returnsExpression statements = false ->
     getReturnType getText typeChecker (FunctionLike parameters (Some (Block statements))) =
     getVoidType typeChecker).
Proof.
  repeat split.
  - discriminate.
  - intros before callee valueExpr more after Hjson Hafter.
    unfold getReturnType. rewrite returnTypeVariable_body, fold_left_app. simpl.
    rewrite assign_json by exact Hjson.
    rewrite fold_assign_other by exact Hafter.
    reflexivity.
  - intros before callee arguments after Hother Hbefore Hafter.
    unfold getReturnType. rewrite returnTypeVariable_body, fold_left_app. simpl.
    rewrite (fold_assign_other _ _ before) by exact Hbefore.
    rewrite assign_not_json by exact Hother.
    rewrite fold_assign_other by exact Hafter.
    reflexivity.
  - intros statements Hnone.
    unfold getReturnType.
    rewrite returnTypeVariable_body, fold_assign_other by exact Hnone.
    reflexivity.
Qed.

Lemma getReturnType_cases_witness :
  getReturnType Sample.text Sample.checker
    (Sample.handler [ExpressionStatement (Sample.call "log" ["event"]);
                     Sample.returning "json" "a"]) = Sample.stringType /\
  getReturnType Sample.text Sample.checker
    (Sample.handler [Sample.returning "someOtherFn" "a"]) = Sample.anyType /\
  getReturnType Sample.text Sample.checker
    (Sample.handler [ExpressionStatement (Sample.call "log" ["event"])]) = Sample.voidType.
Proof.
  destruct (getReturnType_cases Sample.text Sample.checker ["event"])
    as (_ & Hjson & Hother & Hvoid).
  split; [| split].
  - apply (Hjson [ExpressionStatement (Sample.call "log" ["event"])]
             (Identifier "json") (Identifier "a") [] []); reflexivity.
  - apply (Hother [] (Identifier "someOtherFn") [Identifier "a"] []);
      [discriminate | reflexivity | reflexivity].
  - apply Hvoid. reflexivity.
Defined.

(** C4: on [return json(a); return someOtherFn(b)] the code keeps the type
    of [a]: the second return statement, which is not a [json] call, does
    not assign the "any" type, because the variable is already set. *)
Theorem getReturnType_json_then_other :
  getReturnType Sample.text Sample.checker
    (Sample.handler [Sample.returning "json" "a"; Sample.returning "someOtherFn" "b"])
  = getTypeAtLocation Sample.checker (Identifier "a") /\
  getReturnType Sample.text Sample.checker
    (Sample.handler [Sample.returning "json" "a"; Sample.returning "someOtherFn" "b"])
  <> getAnyType Sample.checker /\
  getReturnType Sample.text Sample.checker
    (Sample.handler [Sample.returning "someOtherFn" "b"])
  = getAnyType Sample.checker.
Proof.
  split; [reflexivity | split; [| reflexivity]].
  intros H. apply (f_equal getFlags) in H. discriminate H.
Qed.

(** ** The unwrapper *)

Lemma getZodTypeToString_unfold (typeChecker : TypeChecker) (type : Type_) :
  getZodTypeToString typeChecker type =
  match firstBaseType type with
  | Some zodType =>
      Ok (typeToString typeChecker (nth_error (getTypeArguments typeChecker zodType) 2))
  | None =>
      let zodArguments := getTypeArguments typeChecker type in
      if (List.length zodArguments =? 5)%nat then
        Ok (typeToString typeChecker (nth_error zodArguments 4))
      else if (List.length zodArguments =? 2)%nat then
        text <- getZodTypeToStringAt typeChecker (nth_error zodArguments 0) ;;
        Ok (text ++ "[]")
      else getZodTypeToStringAt typeChecker (nth_error zodArguments 0)
  end.
Proof.
  destruct type as [flags baseTypes arguments properties property].
  simpl. destruct (firstBaseType _); [reflexivity |].
  unfold getTypeArguments. simpl.
  destruct arguments as [|first others]; reflexivity.
Qed.

(** C5: with a first base type, the result is the text of that base type's
    third type argument; otherwise with exactly five type arguments it is
    the text of the fifth; with exactly two it is the unwrapping of the
    first followed by [[]]; with any other count it is the unwrapping of
    the first type argument. *)
Theorem getZodTypeToString_cases (typeChecker : TypeChecker) (type : Type_) :
  (forall zodType,
     firstBaseType type = Some zodType ->
     getZodTypeToString typeChecker type =
     Ok (typeToString typeChecker (nth_error (getTypeArguments typeChecker zodType) 2))) /\
  (firstBaseType type = None ->
   List.length (getTypeArguments typeChecker type) = 5%nat ->
   exists fifth,
     nth_error (getTypeArguments typeChecker type) 4 = Some fifth /\
     getZodTypeToString typeChecker type = Ok (typeToString typeChecker (Some fifth))) /\
  (firstBaseType type = None ->
   List.length (getTypeArguments typeChecker type) = 2%nat ->
   exists first,
     nth_error (getTypeArguments typeChecker type) 0 = Some first /\
     getZodTypeToString typeChecker type =
     (text <- getZodTypeToString typeChecker first ;; Ok (text ++ "[]"))) /\
  (firstBaseType type = None ->
   List.length (getTypeArguments typeChecker type) <> 5%nat ->
   List.length (getTypeArguments typeChecker type) <> 2%nat ->
   getZodTypeToString typeChecker type =
   getZodTypeToStringAt typeChecker (nth_error (getTypeArguments typeChecker type) 0)).
Proof.
  rewrite getZodTypeToString_unfold.
  split; [| split; [| split]].
  - intros zodType Hbase. rewrite Hbase. reflexivity.
  - intros Hbase Hfive. rewrite Hbase. cbv zeta. rewrite Hfive. simpl.
    destruct (getTypeArguments typeChecker type)
      as [|a0 [|a1 [|a2 [|a3 [|a4 rest]]]]]; try discriminate Hfive.
    exists a4. split; reflexivity.
  - intros Hbase Htwo. rewrite Hbase. cbv zeta. rewrite Htwo. simpl.
    destruct (getTypeArguments typeChecker type) as [|a0 rest]; try discriminate Htwo.
    exists a0. split; reflexivity.
  - intros Hbase Hfive Htwo. rewrite Hbase. cbv zeta.
    apply Nat.eqb_neq in Hfive, Htwo. rewrite Hfive, Htwo. reflexivity.
Qed.

Lemma getZodTypeToString_cases_witness :
  getZodTypeToString Sample.checker Sample.zodString = Ok "string" /\
  getZodTypeToString Sample.checker Sample.zodObject = Ok "{ q: string }" /\
  getZodTypeToString Sample.checker Sample.zodArray = Ok "string[]" /\
  getZodTypeToString Sample.checker
    (mkType 524288 None [Sample.zodArray] [] (fun _ => None)) = Ok "string[]".
Proof.
  split; [| split; [| split]].
  - exact (proj1 (getZodTypeToString_cases Sample.checker Sample.zodString) _ eq_refl).
  - destruct (proj1 (proj2 (getZodTypeToString_cases Sample.checker Sample.zodObject))
                eq_refl eq_refl) as (fifth & Hfifth & Htext).
    rewrite Htext. injection Hfifth as <-. reflexivity.
  - destruct (proj1 (proj2 (proj2 (getZodTypeToString_cases Sample.checker Sample.zodArray)))
                eq_refl eq_refl) as (first & Hfirst & Htext).
    rewrite Htext. injection Hfirst as <-. reflexivity.
  - rewrite (proj2 (proj2 (proj2
               (getZodTypeToString_cases Sample.checker
                  (mkType 524288 None [Sample.zodArray] [] (fun _ => None)))))
               eq_refl);
      [reflexivity | discriminate | discriminate].
Defined.

(** C9: the unwrapper throws on a type that has no base type and no type
    argument, such as the type of a plain string property, and
    [parseSchema] throws with it on a schema that has such a property. *)
Theorem getZodTypeToString_throws :
  firstBaseType Sample.stringType = None /\
  getTypeArguments Sample.schemaChecker Sample.stringType = [] /\
  getZodTypeToString Sample.schemaChecker Sample.stringType = TypeError /\
  parseSchema Sample.schemaChecker
    (mkDescriptor (Some (Identifier "p")) (Some Sample.voidType)) false = TypeError /\
  parseSchema Sample.schemaChecker
    (mkDescriptor (Some (Identifier "p")) (Some Sample.voidType)) true
  = Ok (Parsed.mk None None (Some "void")).
Proof.
  repeat split.
Qed.

(** ** Strings *)

Lemma length_append (a b : string) :
  String.length (a ++ b) = (String.length a + String.length b)%nat.
Proof.
  induction a as [|c a IH]; simpl; [reflexivity | now rewrite IH].
Qed.

Lemma length_zero (a : string) : String.length a = 0%nat -> a = "".
Proof.
  destruct a; [reflexivity | discriminate].
Qed.

Lemma fieldText_not_empty (field : string * string) : fieldText field <> "".
Proof.
  unfold fieldText. intros H. apply (f_equal String.length) in H.
  rewrite !length_append in H. simpl in H. lia.
Qed.

Lemma join_fields_empty (fields : list (string * string)) :
  join "; " (map fieldText fields) = "" -> fields = [].
Proof.
  destruct fields as [|field rest]; [reflexivity |].
  simpl. intros H. exfalso. apply (fieldText_not_empty field).
  destruct (map fieldText rest).
  - exact H.
  - apply (f_equal String.length) in H. rewrite length_append in H.
    apply length_zero. simpl in H. lia.
Qed.

Lemma record_text_empty (fields : list (string * string)) :
  ("{ " ++ join "; " (map fieldText fields) ++ " }" =? "{  }") = true <-> fields = [].
Proof.
  split.
  - intros H. apply String.eqb_eq in H. apply join_fields_empty.
    apply (f_equal String.length) in H. rewrite !length_append in H.
    apply length_zero. simpl in H. lia.
  - intros ->. reflexivity.
Qed.

(** ** generateUrlType *)

Lemma entries_defined (fields : list (string * option string)) :
  map (fun '(name, type) => name ++ ": " ++ templateText type)
    (filter (fun '(_, type) => isDefined type) fields) =
  map fieldText (definedFields fields).
Proof.
  induction fields as [|[name [type|]] fields IH]; simpl.
  - reflexivity.
  - f_equal. exact IH.
  - exact IH.
Qed.

Lemma entries_length (fields : list (string * option string)) :
  List.length (filter (fun '(_, type) => isDefined type) fields) =
  List.length (definedFields fields).
Proof.
  induction fields as [|[name [type|]] fields IH]; simpl.
  - reflexivity.
  - f_equal. exact IH.
  - exact IH.
Qed.

(** C8: entries with an undefined value are dropped; with no defined entry
    (so for the empty mapping and for a mapping whose only value is
    undefined) the result is exactly [never]; otherwise it is the braces
    around the [name: type] texts of exactly the defined fields, in input
    order, joined by [; ]. *)
Theorem generateUrlType_defined_fields (fields : list (string * option string)) :
  generateUrlType fields =
  match definedFields fields with
  | [] => "never"
  | _ :: _ => "{ " ++ join "; " (map fieldText (definedFields fields)) ++ " }"
  end /\
  (generateUrlType fields = "never" <-> definedFields fields = []) /\
  generateUrlType [] = "never" /\
  generateUrlType [("a", None)] = "never".
Proof.
  assert (generateUrlType fields =
          match definedFields fields with
          | [] => "never"
          | _ :: _ => "{ " ++ join "; " (map fieldText (definedFields fields)) ++ " }"
          end) as Hvalue.
  { unfold generateUrlType. cbv zeta. rewrite entries_defined, entries_length.
    destruct (definedFields fields); reflexivity. }
  split; [exact Hvalue | split; [| split; reflexivity]].
  rewrite Hvalue. destruct (definedFields fields) as [|field rest].
  - split; reflexivity.
  - split; [| discriminate]. simpl. discriminate.
Qed.

(** ** parseSchema *)

Lemma bind_Ok (A B : Type) (c : Outcome A) (k : A -> Outcome B) (b : B) :
  bind c k = Ok b -> exists a, c = Ok a /\ k a = Ok b.
Proof.
  destruct c as [a|]; simpl; intros H; [exists a; split; [reflexivity | exact H] | discriminate].
Qed.

Lemma parseSchema_steps (typeChecker : TypeChecker) (data : SchemaDescriptor)
    (skipBody : bool) :
  parseSchema typeChecker data skipBody =
  (body <- bodyStep typeChecker (inputType typeChecker data) skipBody ;;
   searchParams <- searchParamsStep typeChecker (inputType typeChecker data) ;;
   Ok (Parsed.mk (emptyRecordToAbsent body) searchParams
         match returnType data with
         | Some type => Some (typeToString typeChecker (Some type))
         | None => None
         end)).
Proof.
  unfold parseSchema, bodyStep, searchParamsStep, inputType.
  destruct (schema data); reflexivity.
Qed.

Lemma parseSchema_Ok (typeChecker : TypeChecker) (data : SchemaDescriptor)
    (skipBody : bool) (parsed : Parsed.t) :
  parseSchema typeChecker data skipBody = Ok parsed ->
  exists body searchParams,
    bodyStep typeChecker (inputType typeChecker data) skipBody = Ok body /\
    searchParamsStep typeChecker (inputType typeChecker data) = Ok searchParams /\
    Parsed.body parsed = emptyRecordToAbsent body /\
    Parsed.searchParams parsed = searchParams /\
    Parsed.returnType parsed =
      match returnType data with
      | Some type => Some (typeToString typeChecker (Some type))
      | None => None
      end.
Proof.
  rewrite parseSchema_steps. intros H.
  apply bind_Ok in H as (body & Hbody & H).
  apply bind_Ok in H as (searchParams & Hsearch & H).
  injection H as <-. exists body, searchParams. repeat split; assumption.
Qed.

Lemma mapOutcome_bodyFields (typeChecker : TypeChecker) (properties : list Symbol)
    (strings : list (option string)) :
  mapOutcome (propertyToString typeChecker) properties = Ok strings ->
  filterNotNull strings = map fieldText (bodyFields typeChecker properties).
Proof.
  revert strings.
  induction properties as [|property properties IH]; intros strings H; simpl in H.
  - injection H as <-. reflexivity.
  - apply bind_Ok in H as (first & Hfirst & H).
    apply bind_Ok in H as (others & Hothers & H).
    injection H as <-. specialize (IH others Hothers).
    unfold propertyToString in Hfirst. simpl bodyFields.
    destruct (getName property =? "searchParams").
    + injection Hfirst as <-. exact IH.
    + destruct (getZodTypeToString typeChecker (getTypeOfSymbol typeChecker property))
        as [outputType|]; simpl in Hfirst; [| discriminate].
      destruct (outputType =? ""); injection Hfirst as <-; simpl.
      * exact IH.
      * rewrite IH. reflexivity.
Qed.

Lemma bodyStep_Ok (typeChecker : TypeChecker) (zodInputType : option Type_)
    (skipBody : bool) (body : option string) :
  bodyStep typeChecker zodInputType skipBody = Ok body ->
  body =
  match skipBody, zodInputType with
  | false, Some zodInputType =>
      Some ("{ " ++ join "; "
                      (map fieldText
                         (bodyFields typeChecker
                            (getPropertiesOfType typeChecker zodInputType))) ++ " }")
  | _, _ => None
  end.
Proof.
  unfold bodyStep.
  destruct skipBody; [intros H; injection H as <-; reflexivity |].
  destruct zodInputType as [zodInputType|]; [| intros H; injection H as <-; reflexivity].
  intros H. apply bind_Ok in H as (strings & Hstrings & H).
  injection H as <-. rewrite (mapOutcome_bodyFields _ _ Hstrings). reflexivity.
Qed.

(** X10: in every record [parseSchema] returns, [body] is absent exactly
    when [skipBody] is set, or there is no schema node, or no property of
    the schema type reaches the body; otherwise it is the braces around the
    [name: type] texts, joined by [; ], of the properties other than
    [searchParams] whose unwrapped type is not empty. *)
Theorem parseSchema_body (typeChecker : TypeChecker) (data : SchemaDescriptor)
    (skipBody : bool) (parsed : Parsed.t) :
  parseSchema typeChecker data skipBody = Ok parsed ->
  (Parsed.body parsed = None <->
   skipBody = true \/ schema data = None \/
   exists schemaNode,
     schema data = Some schemaNode /\
     bodyFields typeChecker
       (getPropertiesOfType typeChecker (getTypeAtLocation typeChecker schemaNode)) = []) /\
  (forall text,
     Parsed.body parsed = Some text ->
     exists schemaNode,
       schema data = Some schemaNode /\
       text = "{ " ++ join "; "
                       (map fieldText
                          (bodyFields typeChecker
                             (getPropertiesOfType typeChecker
                                (getTypeAtLocation typeChecker schemaNode)))) ++ " }").
Proof.
  intros H. apply parseSchema_Ok in H as (body & searchParams & Hbody & _ & -> & _).
  apply bodyStep_Ok in Hbody. subst body. unfold inputType.
  destruct skipBody.
  { simpl. split; [split; auto | discriminate]. }
  destruct (schema data) as [schemaNode|].
  2: { simpl. split; [split; auto | discriminate]. }
  set (fields := bodyFields typeChecker
                   (getPropertiesOfType typeChecker
                      (getTypeAtLocation typeChecker schemaNode))).
  unfold emptyRecordToAbsent.
  destruct ("{ " ++ join "; " (map fieldText fields) ++ " }" =? "{  }") eqn:Hempty.
  - apply record_text_empty in Hempty. split; [| discriminate].
    split; [| reflexivity].
    intros _. right; right. exists schemaNode. split; [reflexivity | exact Hempty].
  - split.
    + split; [discriminate |].
      intros [Hskip | [Hnone | (node & Hnode & Hfields)]]; try discriminate.
      injection Hnode as <-. apply record_text_empty in Hfields.
      fold fields in Hfields. congruence.
    + intros text Htext. injection Htext as <-.
      exists schemaNode. split; reflexivity.
Qed.

Lemma parseSchema_body_witness :
  (Parsed.body Sample.parsed = None <->
   false = true \/ schema Sample.descriptor = None \/
   exists schemaNode,
     schema Sample.descriptor = Some schemaNode /\
     bodyFields Sample.schemaChecker
       (getPropertiesOfType Sample.schemaChecker
          (getTypeAtLocation Sample.schemaChecker schemaNode)) = []) /\
  (forall text,
     Parsed.body Sample.parsed = Some text ->
     exists schemaNode,
       schema Sample.descriptor = Some schemaNode /\
       text = "{ " ++ join "; "
                       (map fieldText
                          (bodyFields Sample.schemaChecker
                             (getPropertiesOfType Sample.schemaChecker
                                (getTypeAtLocation Sample.schemaChecker schemaNode)))) ++ " }").
Proof.
  exact (parseSchema_body Sample.schemaChecker Sample.descriptor false eq_refl).
Defined.

Lemma searchParamsStep_Ok (typeChecker : TypeChecker) (zodInputType : option Type_)
    (searchParams : option string) :
  searchParamsStep typeChecker zodInputType = Ok searchParams ->
  forall text,
    searchParams = Some text <->
    exists inputType symbol,
      zodInputType = Some inputType /\
      getProperty inputType "searchParams" = Some symbol /\
      Z.land (getFlags (getTypeOfSymbol typeChecker symbol)) TypeFlags_Object <> 0%Z /\
      getZodTypeToString typeChecker (getTypeOfSymbol typeChecker symbol) = Ok text.
Proof.
  unfold searchParamsStep. intros H text.
  destruct zodInputType as [inputType|].
  2: { injection H as <-. split; [discriminate | intros (? & ? & ? & _); discriminate]. }
  destruct (getProperty inputType "searchParams") as [symbol|] eqn:Hsymbol.
  2: { injection H as <-. split; [discriminate |].
       intros (? & ? & Hinput & Hfound & _). injection Hinput as <-. congruence. }
  cbv zeta in H.
  destruct (Z.land (getFlags (getTypeOfSymbol typeChecker symbol)) TypeFlags_Object =? 0)%Z
    eqn:Hflags.
  - injection H as <-. split; [discriminate |].
    intros (? & symbol' & Hinput & Hfound & Hobject & _).
    injection Hinput as <-. rewrite Hsymbol in Hfound. injection Hfound as <-.
    apply Z.eqb_eq in Hflags. contradiction.
  - apply bind_Ok in H as (unwrapped & Hunwrapped & H). injection H as <-.
    apply Z.eqb_neq in Hflags. split.
    + intros Htext. injection Htext as <-. exists inputType, symbol. auto.
    + intros (? & symbol' & Hinput & Hfound & _ & Htext).
      injection Hinput as <-. rewrite Hsymbol in Hfound. injection Hfound as <-.
      congruence.
Qed.

(** X11: in every record [parseSchema] returns, [searchParams] is defined
    if and only if there is a schema node, its type has a property named
    [searchParams], and the type of that property has the object flag; its
    value is then the unwrapping of that property's type, and in every
    other case it is absent. *)
Theorem parseSchema_searchParams (typeChecker : TypeChecker) (data : SchemaDescriptor)
    (skipBody : bool) (parsed : Parsed.t) :
  parseSchema typeChecker data skipBody = Ok parsed ->
  (Parsed.searchParams parsed <> None <->
   exists schemaNode symbol,
     schema data = Some schemaNode /\
     getProperty (getTypeAtLocation typeChecker schemaNode) "searchParams" = Some symbol /\
     Z.land (getFlags (getTypeOfSymbol typeChecker symbol)) TypeFlags_Object <> 0%Z) /\
  (forall schemaNode symbol,
     schema data = Some schemaNode ->
     getProperty (getTypeAtLocation typeChecker schemaNode) "searchParams" = Some symbol ->
     Z.land (getFlags (getTypeOfSymbol typeChecker symbol)) TypeFlags_Object <> 0%Z ->
     exists text,
       getZodTypeToString typeChecker (getTypeOfSymbol typeChecker symbol) = Ok text /\
       Parsed.searchParams parsed = Some text).
Proof.
  intros H. apply parseSchema_Ok in H as (body & searchParams & _ & Hsearch & _ & -> & _).
  pose proof (searchParamsStep_Ok _ _ Hsearch) as Hiff.
  assert (forall schemaNode symbol,
            schema data = Some schemaNode ->
            getProperty (getTypeAtLocation typeChecker schemaNode) "searchParams"
              = Some symbol ->
            Z.land (getFlags (getTypeOfSymbol typeChecker symbol)) TypeFlags_Object <> 0%Z ->
            exists text,
              getZodTypeToString typeChecker (getTypeOfSymbol typeChecker symbol) = Ok text /\
              searchParams = Some text) as Hdefined.
  { intros schemaNode symbol Hnode Hsymbol Hobject.
    unfold searchParamsStep, inputType in Hsearch.
    rewrite Hnode, Hsymbol in Hsearch. cbv zeta in Hsearch.
    apply Z.eqb_neq in Hobject. rewrite Hobject in Hsearch.
    apply bind_Ok in Hsearch as (text & Htext & Hsome).
    injection Hsome as <-. exists text. split; [exact Htext | reflexivity]. }
  split; [| exact Hdefined].
  split.
  - destruct searchParams as [text|]; [intros _ | intros Habsent; now elim Habsent].
    destruct (proj1 (Hiff text) eq_refl) as (input & symbol & Hinput & Hsymbol & Hobject & _).
    unfold inputType in Hinput.
    destruct (schema data) as [schemaNode|]; [| discriminate].
    injection Hinput as <-. exists schemaNode, symbol. auto.
  - intros (schemaNode & symbol & Hnode & Hsymbol & Hobject).
    destruct (Hdefined _ _ Hnode Hsymbol Hobject) as (text & _ & ->). discriminate.
Qed.

Lemma parseSchema_searchParams_witness :
  Parsed.searchParams Sample.parsed <> None /\
  exists text,
    getZodTypeToString Sample.schemaChecker Sample.zodObject = Ok text /\
    Parsed.searchParams Sample.parsed = Some text.
Proof.
  pose proof (parseSchema_searchParams Sample.schemaChecker Sample.descriptor false eq_refl)
    as [Hdefined Hvalue].
  split.
  - apply Hdefined. exists (Identifier "s"), ("searchParams", Sample.zodObject).
    split; [reflexivity | split; [reflexivity | discriminate]].
  - apply (Hvalue (Identifier "s") ("searchParams", Sample.zodObject));
      [reflexivity | reflexivity | discriminate].
Defined.

(** X12: whenever [parseSchema] returns with [skipBody] unset, it returns
    with [skipBody] set as well, and every record it returns then has the
    same [searchParams] and the same [returnType] as the record returned
    with [skipBody] unset. *)
Theorem parseSchema_skipBody_frame (typeChecker : TypeChecker) (data : SchemaDescriptor)
    (parsed : Parsed.t) :
  parseSchema typeChecker data false = Ok parsed ->
  (exists skipped, parseSchema typeChecker data true = Ok skipped) /\
  (forall skipped,
     parseSchema typeChecker data true = Ok skipped ->
     Parsed.searchParams skipped = Parsed.searchParams parsed /\
     Parsed.returnType skipped = Parsed.returnType parsed).
Proof.
  intros H.
  apply parseSchema_Ok in H as (body & searchParams & _ & Hsearch & _ & Hparams & Htype).
  assert (parseSchema typeChecker data true =
          Ok (Parsed.mk None (Parsed.searchParams parsed) (Parsed.returnType parsed)))
    as Hskipped.
  { rewrite parseSchema_steps. unfold bodyStep at 1. simpl bind at 1.
    rewrite Hsearch. simpl. rewrite Hparams, Htype. reflexivity. }
  split.
  - eexists. exact Hskipped.
  - intros skipped Hreturned. rewrite Hskipped in Hreturned.
    injection Hreturned as <-. split; reflexivity.
Qed.

Lemma parseSchema_skipBody_frame_witness :
  (exists skipped, parseSchema Sample.schemaChecker Sample.descriptor true = Ok skipped) /\
  Parsed.searchParams (Parsed.mk None (Some "{ q: string }") (Some "void"))
  = Parsed.searchParams Sample.parsed /\
  Parsed.returnType (Parsed.mk None (Some "{ q: string }") (Some "void"))
  = Parsed.returnType Sample.parsed.
Proof.
  pose proof (parseSchema_skipBody_frame Sample.schemaChecker Sample.descriptor eq_refl)
    as [Hreturns Hsame].
  split; [exact Hreturns | exact (Hsame _ eq_refl)].
Defined.

(** * Further properties of the extractor *)

(** ** Functions without a block body *)

(** X1: a function-like declaration without a block body (a signature
    without body, or an arrow function whose body is an expression, even
    [() => json(a)]) has no schema node and the "void" return type. *)
Theorem no_block_body (getText : Node -> string) (typeChecker : TypeChecker)
    (parameters : list string) (body : option Node) :
  match body with
  | Some node => isBlock node = false
  | None => True
  end ->
  getSchema (FunctionLike parameters body) = None /\
  getReturnType getText typeChecker (FunctionLike parameters body) = getVoidType typeChecker.
Proof.
  intros Hbody. split.
  - unfold getSchema, forEachChild at 1. simpl childrenOf.
    rewrite visitNodes_parameters by reflexivity.
    destruct body as [node|]; simpl; [rewrite Hbody |]; reflexivity.
  - unfold getReturnType, returnTypeVariable, forEachChildSt at 1. simpl childrenOf.
    rewrite visitNodesSt_parameters by reflexivity.
    destruct body as [node|]; simpl; [rewrite Hbody |]; reflexivity.
Qed.

Lemma no_block_body_witness :
  getSchema (FunctionLike [] (Some (Sample.call "json" ["a"]))) = None /\
  getReturnType Sample.text Sample.checker (FunctionLike [] (Some (Sample.call "json" ["a"])))
  = Sample.voidType.
Proof.
  exact (no_block_body Sample.text Sample.checker [] (Some (Sample.call "json" ["a"]))
           eq_refl).
Defined.

(** ** Where a schema node comes from *)

Lemma visitNodes_Some (T : Type) (cbNode : Node -> option T) (nodes : list Node)
    (result : T) :
  visitNodes cbNode nodes = Some result ->
  exists node, In node nodes /\ cbNode node = Some result.
Proof.
  induction nodes as [|node nodes IH]; simpl; [discriminate |].
  destruct (cbNode node) as [found|] eqn:Hnode.
  - intros H. injection H as <-. exists node. split; [left; reflexivity | exact Hnode].
  - intros H. destruct (IH H) as (later & Hin & Hlater).
    exists later. split; [right; exact Hin | exact Hlater].
Qed.

(** X2: whatever node [getSchema] returns is the second argument of a call
    that is awaited in the initializer of a binding of a variable statement
    standing directly in a block child of the function: nothing nested
    deeper, and no call that is not awaited, is ever returned. *)
Theorem getSchema_origin (func node : Node) :
  getSchema func = Some node ->
  exists statements declarationList name callee arguments,
    In (Block statements) (childrenOf func) /\
    In (VariableStatement declarationList) statements /\
    In (VariableDeclaration name (Some (AwaitExpression (CallExpression callee arguments))))
       (childrenOf declarationList) /\
    nth_error arguments 1 = Some node.
Proof.
  unfold getSchema, forEachChild at 1. intros H.
  apply visitNodes_Some in H as (block & Hblock & H).
  destruct block as [| | | | | | | | |statements| | |]; try discriminate H.
  simpl in H. unfold forEachChild at 1 in H. simpl childrenOf in H.
  apply visitNodes_Some in H as (statement & Hstatement & H).
  destruct statement as [| | | | | |declarationList| | | | | |]; try discriminate H.
  unfold forEachChild in H.
  apply visitNodes_Some in H as (declaration & Hdeclaration & H).
  destruct declaration as [| | | |name [initializer|]| | | | | | | |]; try discriminate H.
  destruct initializer as [| |awaited| | | | | | | | | |]; try discriminate H.
  destruct awaited as [| | |callee arguments| | | | | | | | |]; try discriminate H.
  exists statements, declarationList, name, callee, arguments. auto.
Qed.

Lemma getSchema_origin_witness :
  exists statements declarationList name callee arguments,
    In (Block statements)
       (childrenOf (Sample.handler [ExpressionStatement (Sample.call "log" ["event"]);
                                    Sample.validated])) /\
    In (VariableStatement declarationList) statements /\
    In (VariableDeclaration name (Some (AwaitExpression (CallExpression callee arguments))))
       (childrenOf declarationList) /\
    nth_error arguments 1 = Some (Identifier "s").
Proof.
  exact (getSchema_origin
           (Sample.handler [ExpressionStatement (Sample.call "log" ["event"]);
                            Sample.validated]) eq_refl).
Defined.

(** X3: over a body split in two, [getSchema] is the result on the first
    part when that finds a node, and the result on the second part
    otherwise. *)
Theorem getSchema_app (parameters : list string) (front back : list Node) :
  getSchema (FunctionLike parameters (Some (Block (front ++ back)))) =
  match getSchema (FunctionLike parameters (Some (Block front))) with
  | Some node => Some node
  | None => getSchema (FunctionLike parameters (Some (Block back)))
  end.
Proof.
  rewrite !getSchema_body. apply visitNodes_app.
Qed.

(** ** The return type in closed form *)

Section ReturnTypeClosedForm.
Variable getText : Node -> string.
Variable typeChecker : TypeChecker.

Lemma assignment_cases (returnType : option Type_) (child : Node) :
  assignment getText typeChecker returnType child =
  match jsonArgument getText child with
  | Some valueExpr => Some (getTypeAtLocation typeChecker valueExpr)
  | None =>
      match returnType with
      | Some assigned => Some assigned
      | None => if returnsExpression child then Some (getAnyType typeChecker) else None
      end
  end.
Proof.
  unfold assignment.
  destruct child as [| | | | | | |[expression|]| | | | |];
    try (destruct returnType; reflexivity).
  destruct expression as [| | |calledFunction [|argument arguments]| | | | | | | | |];
    try (destruct returnType; reflexivity); simpl;
    destruct (getText calledFunction =? "json"); destruct returnType; reflexivity.
Qed.

Lemma fold_assignment (statements : list Node) (returnType : option Type_) :
  fold_left (assignment getText typeChecker) statements returnType =
  match lastJsonArgument getText statements with
  | Some valueExpr => Some (getTypeAtLocation typeChecker valueExpr)
  | None =>
      match returnType with
      | Some assigned => Some assigned
      | None =>
          if existsb returnsExpression statements then Some (getAnyType typeChecker)
          else None
      end
  end.
Proof.
  revert returnType.
  induction statements as [|child statements IH]; intros returnType.
  - destruct returnType; reflexivity.
  - simpl. rewrite IH, assignment_cases.
    destruct (lastJsonArgument getText statements) as [later|]; [reflexivity |].
    destruct (jsonArgument getText child) as [valueExpr|] eqn:Hjson.
    + reflexivity.
    + destruct returnType as [assigned|]; [reflexivity |].
      destruct (returnsExpression child); simpl; reflexivity.
Qed.
End ReturnTypeClosedForm.

(** X4: over the direct statements of the body, [getReturnType] is the
    inferred type of the argument of the last [return json(valueExpr, ...)];
    without such a statement it is the "any" type when some direct return
    statement carries an expression, and the "void" type otherwise. *)
Theorem getReturnType_closed_form (getText : Node -> string) (typeChecker : TypeChecker)
    (parameters : list string) (statements : list Node) :
  getReturnType getText typeChecker (FunctionLike parameters (Some (Block statements))) =
  match lastJsonArgument getText statements with
  | Some valueExpr => getTypeAtLocation typeChecker valueExpr
  | None =>
      if existsb returnsExpression statements then getAnyType typeChecker
      else getVoidType typeChecker
  end.
Proof.
  unfold getReturnType. rewrite returnTypeVariable_body, fold_assignment.
  destruct (lastJsonArgument getText statements); [reflexivity |].
  destruct (existsb returnsExpression statements); reflexivity.
Qed.

(** ** The unwrapper in closed form *)

(** Induction along first type arguments. *)
Lemma firstArgument_ind (P : Type_ -> Prop) :
  (forall type,
     (forall first others, typeArguments type = first :: others -> P first) -> P type) ->
  forall type, P type.
Proof.
  intros Hstep. fix IH 1. intros type. apply Hstep.
  destruct type as [flags baseTypes arguments properties property]. simpl.
  intros first others Harguments.
  destruct arguments as [|argument rest]; [discriminate Harguments |].
  injection Harguments as <- _. apply IH.
Qed.

Lemma append_assoc (a b c : string) : (a ++ b) ++ c = a ++ (b ++ c).
Proof.
  induction a as [|char a IH]; simpl; [reflexivity | now rewrite IH].
Qed.

Lemma append_empty (a : string) : a ++ "" = a.
Proof.
  induction a as [|char a IH]; simpl; [reflexivity | now rewrite IH].
Qed.

Lemma unwrap_unfold (type : Type_) :
  unwrapTarget type =
  match firstBaseType type with
  | Some _ => type
  | None =>
      if (List.length (typeArguments type) =? 5)%nat then type
      else
        match typeArguments type with
        | first :: _ => unwrapTarget first
        | [] => type
        end
  end /\
  arrayDepth type =
  match firstBaseType type with
  | Some _ => 0%nat
  | None =>
      if (List.length (typeArguments type) =? 5)%nat then 0%nat
      else
        match typeArguments type with
        | first :: _ =>
            ((if (List.length (typeArguments type) =? 2)%nat then 1 else 0)
             + arrayDepth first)%nat
        | [] => 0%nat
        end
  end.
Proof.
  destruct type; split; reflexivity.
Qed.

Lemma getZodTypeToString_target (typeChecker : TypeChecker) (type : Type_) :
  getZodTypeToString typeChecker type =
  (text <- targetText typeChecker (unwrapTarget type) ;;
   Ok (text ++ arraySuffix (arrayDepth type))).
Proof.
  induction type as [type IH] using firstArgument_ind.
  destruct (unwrap_unfold type) as [Htarget Hdepth].
  rewrite getZodTypeToString_unfold, Htarget, Hdepth.
  destruct (firstBaseType type) as [zodType|] eqn:Hbase.
  { unfold targetText. rewrite Hbase. simpl. rewrite append_empty. reflexivity. }
  unfold getTypeArguments. cbv zeta.
  destruct (List.length (typeArguments type) =? 5)%nat eqn:Hfive.
  { unfold targetText. rewrite Hbase.
    destruct (typeArguments type); [discriminate Hfive |].
    simpl. rewrite append_empty. reflexivity. }
  destruct (typeArguments type) as [|first others] eqn:Harguments.
  { unfold targetText. rewrite Hbase, Harguments. reflexivity. }
  specialize (IH first others eq_refl). simpl nth_error. unfold getZodTypeToStringAt.
  rewrite IH.
  destruct (targetText typeChecker (unwrapTarget first)) as [text|].
  - destruct (List.length (first :: others) =? 2)%nat; simpl.
    + rewrite append_assoc. reflexivity.
    + reflexivity.
  - destruct (List.length (first :: others) =? 2)%nat; reflexivity.
Qed.

Lemma unwrapTarget_end (type : Type_) :
  firstBaseType (unwrapTarget type) = None ->
  typeArguments (unwrapTarget type) = [] \/
  List.length (typeArguments (unwrapTarget type)) = 5%nat.
Proof.
  induction type as [type IH] using firstArgument_ind.
  rewrite (proj1 (unwrap_unfold type)).
  destruct (firstBaseType type) eqn:Hbase; [intros H; congruence |].
  destruct (List.length (typeArguments type) =? 5)%nat eqn:Hfive.
  { intros _. right. apply Nat.eqb_eq, Hfive. }
  destruct (typeArguments type) as [|first others] eqn:Harguments.
  - intros _. left. exact Harguments.
  - apply (IH first others eq_refl).
Qed.

Lemma graph_unwinds (Handle : Type) (typeChecker : Graph.Checker Handle)
    (type : Handle) (steps arrays : nat) (target : Handle) :
  Graph.Unwinds typeChecker type steps arrays target ->
  forall stack,
    (steps + 2 <= stack)%nat ->
    Graph.getZodTypeToString stack typeChecker (Some type) =
    Graph.withSuffix (Graph.targetText typeChecker target) (arraySuffix arrays).
Proof.
  induction 1 as [target zodType Hbase | target Hbase Hfive | target Hbase Hnone
                 | type first others steps arrays target Hbase Harguments Hfive Hchain IH];
    intros stack Hstack.
  - destruct stack as [|stack]; [lia |]. unfold Graph.targetText. simpl.
    rewrite Hbase. simpl. rewrite append_empty. reflexivity.
  - destruct stack as [|stack]; [lia |]. unfold Graph.targetText. simpl.
    rewrite Hbase. cbv zeta. rewrite Hfive. simpl.
    destruct (Graph.getTypeArguments typeChecker target); [discriminate Hfive |].
    simpl. rewrite append_empty. reflexivity.
  - destruct stack as [|[|stack]]; [lia | lia |]. unfold Graph.targetText. simpl.
    rewrite Hbase, Hnone. reflexivity.
  - destruct stack as [|stack]; [lia |].
    assert (steps + 2 <= stack)%nat as Hrest by lia.
    specialize (IH stack Hrest).
    cbn [Graph.getZodTypeToString]. rewrite Hbase. cbv zeta. rewrite Harguments.
    apply Nat.eqb_neq in Hfive. rewrite Hfive. cbn [nth_error]. rewrite IH.
    destruct (List.length (first :: others) =? 2)%nat.
    + destruct (Graph.targetText typeChecker target) as [text| |]; simpl;
        [rewrite append_assoc |..]; reflexivity.
    + reflexivity.
Qed.





(** On the finite trees the two readings of the unwrapper agree, once the
    stack has room for the way to the target. *)
Lemma tree_unwinds (typeChecker : TypeChecker) (type : Type_) :
  exists steps,
    Graph.Unwinds (treeChecker typeChecker) type steps (arrayDepth type) (unwrapTarget type).
Proof.
  induction type as [type IH] using firstArgument_ind.
  destruct (unwrap_unfold type) as [Htarget Hdepth]. rewrite Htarget, Hdepth.
  destruct (firstBaseType type) as [zodType|] eqn:Hbase.
  { exists 0%nat. eapply Graph.unwinds_base. exact Hbase. }
  destruct (List.length (typeArguments type) =? 5)%nat eqn:Hfive.
  { exists 0%nat. apply Graph.unwinds_five; [exact Hbase |].
    apply Nat.eqb_eq, Hfive. }
  destruct (typeArguments type) as [|first others] eqn:Harguments.
  { exists 0%nat. apply Graph.unwinds_none; [exact Hbase | exact Harguments]. }
  destruct (IH first others eq_refl) as (steps & Hchain).
  exists (S steps).
  apply (@Graph.unwinds_step _ (treeChecker typeChecker) type first others steps
           (arrayDepth first) (unwrapTarget first));
    [exact Hbase | exact Harguments | apply Nat.eqb_neq, Hfive | exact Hchain].
Qed.

Lemma tree_agrees_with_graph (typeChecker : TypeChecker) (type : Type_) :
  exists depth,
    forall stack,
      (depth <= stack)%nat ->
      Graph.getZodTypeToString stack (treeChecker typeChecker) (Some type) =
      completion (getZodTypeToString typeChecker type).
Proof.
  destruct (tree_unwinds typeChecker type) as (steps & Hchain).
  exists (steps + 2)%nat. intros stack Hstack.
  rewrite (graph_unwinds Hchain Hstack), getZodTypeToString_target.
  unfold Graph.targetText, targetText. simpl.
  change (Graph.firstBaseType (treeChecker typeChecker) (unwrapTarget type))
    with (firstBaseType (unwrapTarget type)).
  destruct (firstBaseType (unwrapTarget type)); [reflexivity |].
  destruct (typeArguments (unwrapTarget type)); reflexivity.
Qed.

(** ** When parseSchema throws *)

Lemma mapOutcome_TypeError (A B : Type) (f : A -> Outcome B) (l : list A) :
  mapOutcome f l = TypeError <-> exists x, In x l /\ f x = TypeError.
Proof.
  induction l as [|x l IH]; simpl.
  - split; [discriminate | intros (? & [] & _)].
  - destruct (f x) as [y|] eqn:Hx; simpl.
    + destruct (mapOutcome f l) as [ys|]; simpl.
      * split; [discriminate |].
        intros (x' & [<- | Hin] & Hthrows); [congruence |].
        assert (Ok ys = TypeError) as Habsurd; [| discriminate Habsurd].
        apply IH. exists x'. split; assumption.
      * split; [| reflexivity].
        intros _. destruct (proj1 IH eq_refl) as (x' & Hin & Hthrows).
        exists x'. split; [right; exact Hin | exact Hthrows].
    + split; [| reflexivity].
      intros _. exists x. split; [left; reflexivity | exact Hx].
Qed.

Lemma propertyToString_TypeError (typeChecker : TypeChecker) (property : Symbol) :
  propertyToString typeChecker property = TypeError <->
  getName property <> "searchParams" /\
  getZodTypeToString typeChecker (getTypeOfSymbol typeChecker property) = TypeError.
Proof.
  unfold propertyToString.
  destruct (getName property =? "searchParams") eqn:Hname.
  - apply String.eqb_eq in Hname.
    split; [discriminate | intros [H _]; contradiction].
  - apply String.eqb_neq in Hname.
    destruct (getZodTypeToString typeChecker (getTypeOfSymbol typeChecker property))
      as [outputType|]; simpl.
    + destruct (outputType =? ""); split; try discriminate; intros [_ H]; discriminate H.
    + split; auto.
Qed.

(** X6: [parseSchema] throws in exactly two cases: [skipBody] is unset and
    the unwrapper throws on the type of some property of the schema type
    that is not named [searchParams]; or the schema type has a
    [searchParams] property whose type has the object flag and the unwrapper
    throws on it.  Without a schema node it never throws. *)
Theorem parseSchema_throws (typeChecker : TypeChecker) (data : SchemaDescriptor)
    (skipBody : bool) :
  parseSchema typeChecker data skipBody = TypeError <->
  (skipBody = false /\
   exists schemaNode property,
     schema data = Some schemaNode /\
     In property
        (getPropertiesOfType typeChecker (getTypeAtLocation typeChecker schemaNode)) /\
     getName property <> "searchParams" /\
     getZodTypeToString typeChecker (getTypeOfSymbol typeChecker property) = TypeError) \/
  (exists schemaNode symbol,
     schema data = Some schemaNode /\
     getProperty (getTypeAtLocation typeChecker schemaNode) "searchParams" = Some symbol /\
     Z.land (getFlags (getTypeOfSymbol typeChecker symbol)) TypeFlags_Object <> 0%Z /\
     getZodTypeToString typeChecker (getTypeOfSymbol typeChecker symbol) = TypeError).
Proof.
  rewrite parseSchema_steps. unfold inputType.
  assert (forall schemaNode,
            bodyStep typeChecker (Some (getTypeAtLocation typeChecker schemaNode)) false
            = TypeError <->
            exists property,
              In property
                 (getPropertiesOfType typeChecker (getTypeAtLocation typeChecker schemaNode)) /\
              getName property <> "searchParams" /\
              getZodTypeToString typeChecker (getTypeOfSymbol typeChecker property)
              = TypeError) as Hbody.
  { intros schemaNode. unfold bodyStep.
    destruct (mapOutcome (propertyToString typeChecker)
                (getPropertiesOfType typeChecker (getTypeAtLocation typeChecker schemaNode)))
      as [strings|] eqn:Hmap; simpl.
    - split; [discriminate |].
      intros (property & Hin & Hthrows).
      assert (mapOutcome (propertyToString typeChecker)
                (getPropertiesOfType typeChecker (getTypeAtLocation typeChecker schemaNode))
              = TypeError) as Habsurd.
      { apply mapOutcome_TypeError. exists property.
        split; [exact Hin | apply propertyToString_TypeError, Hthrows]. }
      congruence.
    - split; [| reflexivity]. intros _.
      apply mapOutcome_TypeError in Hmap as (property & Hin & Hthrows).
      exists property. split; [exact Hin | apply propertyToString_TypeError, Hthrows]. }
  assert (forall schemaNode,
            searchParamsStep typeChecker (Some (getTypeAtLocation typeChecker schemaNode))
            = TypeError <->
            exists symbol,
              getProperty (getTypeAtLocation typeChecker schemaNode) "searchParams"
              = Some symbol /\
              Z.land (getFlags (getTypeOfSymbol typeChecker symbol)) TypeFlags_Object
              <> 0%Z /\
              getZodTypeToString typeChecker (getTypeOfSymbol typeChecker symbol)
              = TypeError) as Hsearch.
  { intros schemaNode. unfold searchParamsStep.
    destruct (getProperty (getTypeAtLocation typeChecker schemaNode) "searchParams")
      as [symbol|].
    2: { split; [discriminate | intros (? & H & _); discriminate H]. }
    cbv zeta.
    destruct (Z.land (getFlags (getTypeOfSymbol typeChecker symbol)) TypeFlags_Object =? 0)%Z
      eqn:Hflags.
    - apply Z.eqb_eq in Hflags. split; [discriminate |].
      intros (symbol' & Hsymbol & Hobject & _). injection Hsymbol as <-. contradiction.
    - apply Z.eqb_neq in Hflags.
      destruct (getZodTypeToString typeChecker (getTypeOfSymbol typeChecker symbol))
        as [text|] eqn:Htext; simpl.
      + split; [discriminate |].
        intros (symbol' & Hsymbol & _ & Hthrows). injection Hsymbol as <-. congruence.
      + split; [| reflexivity]. intros _. exists symbol. auto. }
  destruct (schema data) as [schemaNode|].
  2: { destruct skipBody; simpl;
       (split; [discriminate |]);
       intros [(_ & ? & ? & H & _) | (? & ? & H & _)]; discriminate H. }
  assert (bodyStep typeChecker (Some (getTypeAtLocation typeChecker schemaNode)) true
          = Ok None) as Hskipped by reflexivity.
  specialize (Hbody schemaNode). specialize (Hsearch schemaNode).
  destruct (searchParamsStep typeChecker (Some (getTypeAtLocation typeChecker schemaNode)))
    as [searchParams|].
  - destruct skipBody.
    + rewrite Hskipped. cbn [bind]. split; [discriminate |].
      intros [(Hskip & _) | (node & symbol & Hnode & Hrest)]; [discriminate Hskip |].
      injection Hnode as <-.
      assert (Ok searchParams = TypeError) as Habsurd; [| discriminate Habsurd].
      apply Hsearch. exists symbol. exact Hrest.
    + destruct (bodyStep typeChecker (Some (getTypeAtLocation typeChecker schemaNode)) false)
        as [body|]; cbn [bind].
      * split; [discriminate |].
        intros [(_ & node & property & Hnode & Hrest) | (node & symbol & Hnode & Hrest)];
          injection Hnode as <-.
        -- assert (Ok body = TypeError) as Habsurd; [| discriminate Habsurd].
           apply Hbody. exists property. exact Hrest.
        -- assert (Ok searchParams = TypeError) as Habsurd; [| discriminate Habsurd].
           apply Hsearch. exists symbol. exact Hrest.
      * split; [| reflexivity]. intros _. left. split; [reflexivity |].
        destruct (proj1 Hbody eq_refl) as (property & Hrest).
        exists schemaNode, property. split; [reflexivity | exact Hrest].
  - destruct (proj1 Hsearch eq_refl) as (symbol & Hrest).
    assert (forall bodyOutcome : Outcome (option string),
              (body <- bodyOutcome ;;
               searchParams <- @TypeError (option string) ;;
               Ok (Parsed.mk (emptyRecordToAbsent body) searchParams
                     match returnType data with
                     | Some type => Some (typeToString typeChecker (Some type))
                     | None => None
                     end)) = TypeError) as Hthrows.
    { intros [body|]; reflexivity. }
    rewrite Hthrows. split; [| reflexivity]. intros _. right.
    exists schemaNode, symbol. split; [reflexivity | exact Hrest].
Qed.

(** ** From the handler to the parsed schema *)

(** X7: [parseSchema] applied to what [getSchemaFromFunction] built: every
    record it returns carries a [returnType], the text of the type
    [getReturnType] found; and when [getSchema] found no node it returns
    normally, whatever [skipBody] is, with [body] and [searchParams]
    absent. *)
Theorem parseSchema_of_function (getText : Node -> string) (typeChecker : TypeChecker)
    (func : Node) (skipBody : bool) :
  (forall parsed,
     parseSchema typeChecker (getSchemaFromFunction getText typeChecker func) skipBody
     = Ok parsed ->
     Parsed.returnType parsed =
     Some (typeToString typeChecker (Some (getReturnType getText typeChecker func)))) /\
  (getSchema func = None ->
   parseSchema typeChecker (getSchemaFromFunction getText typeChecker func) skipBody =
   Ok (Parsed.mk None None
         (Some (typeToString typeChecker (Some (getReturnType getText typeChecker func)))))).
Proof.
  split.
  - intros parsed H.
    apply parseSchema_Ok in H as (body & searchParams & _ & _ & _ & _ & Htype).
    exact Htype.
  - intros Hnone. rewrite parseSchema_steps.
    unfold inputType, getSchemaFromFunction. simpl schema. rewrite Hnone.
    destruct skipBody; reflexivity.
Qed.

Lemma parseSchema_of_function_witness :
  parseSchema Sample.checker
    (getSchemaFromFunction Sample.text Sample.checker
       (Sample.handler [Sample.returning "json" "a"])) false =
  Ok (Parsed.mk None None
        (Some (typeToString Sample.checker
                 (Some (getReturnType Sample.text Sample.checker
                          (Sample.handler [Sample.returning "json" "a"])))))).
Proof.
  exact (proj2 (parseSchema_of_function Sample.text Sample.checker
                  (Sample.handler [Sample.returning "json" "a"]) false) eq_refl).
Defined.

(** ** The two renderers *)

Lemma generateUrlType_value (fields : list (string * option string)) :
  generateUrlType fields =
  match definedFields fields with
  | [] => "never"
  | _ :: _ => "{ " ++ join "; " (map fieldText (definedFields fields)) ++ " }"
  end.
Proof.
  unfold generateUrlType. cbv zeta. rewrite entries_defined, entries_length.
  destruct (definedFields fields); reflexivity.
Qed.


Lemma definedFields_app (front back : list (string * option string)) :
  definedFields (front ++ back) = (definedFields front ++ definedFields back)%list.
Proof.
  induction front as [|[name [type|]] front IH]; simpl.
  - reflexivity.
  - f_equal. exact IH.
  - exact IH.
Qed.



(** X9: an entry whose value is undefined has no effect on
    [generateUrlType], wherever it stands in the mapping. *)
Theorem generateUrlType_undefined_entry (front back : list (string * option string))
    (name : string) :
  generateUrlType (front ++ (name, None) :: back) = generateUrlType (front ++ back).
Proof.
  rewrite !generateUrlType_value, !definedFields_app. reflexivity.
Qed.

(** ** Inputs on which parseSchema returns no record *)

(** C6: on the schema [{ name: "abc" }] with [skipBody] unset there is a
    schema node and one property, not named [searchParams]; the unwrapper
    throws on its type, and [parseSchema] throws with it: no record, so no
    [body], is returned. *)
Theorem parseSchema_body_throws :
  schema Sample.plainDescriptor = Some (Identifier "p") /\
  getPropertiesOfType Sample.schemaChecker
    (getTypeAtLocation Sample.schemaChecker (Identifier "p"))
  = [("name", Sample.stringType)] /\
  getZodTypeToString Sample.schemaChecker Sample.stringType = TypeError /\
  parseSchema Sample.schemaChecker Sample.plainDescriptor false = TypeError /\
  (forall parsed,
     parseSchema Sample.schemaChecker Sample.plainDescriptor false <> Ok parsed).
Proof.
  repeat split. discriminate.
Qed.

(** C7: on the schema [{ searchParams: { q: "abc" } }] there is a schema
    node, its type has a property named [searchParams], and the type of
    that property has the object flag; the unwrapper throws on that type,
    and [parseSchema] throws with it for either value of [skipBody]: no
    record, so no [searchParams], is returned. *)
Theorem parseSchema_searchParams_throws :
  schema Sample.queryDescriptor = Some (Identifier "q") /\
  getProperty (getTypeAtLocation Sample.queryChecker (Identifier "q")) "searchParams"
  = Some ("searchParams", Sample.queryType) /\
  Z.land (getFlags Sample.queryType) TypeFlags_Object <> 0%Z /\
  getZodTypeToString Sample.queryChecker Sample.queryType = TypeError /\
  parseSchema Sample.queryChecker Sample.queryDescriptor false = TypeError /\
  parseSchema Sample.queryChecker Sample.queryDescriptor true = TypeError.
Proof.
  repeat split. discriminate.
Qed.

(** C10: on the schema [{ name: "abc" }] the flag decides more than
    [body]: with [skipBody] set [parseSchema] returns a record, with
    [skipBody] unset it throws, so there are no [searchParams] and
    [returnType] to agree with. *)
Theorem parseSchema_skipBody_outcome :
  parseSchema Sample.schemaChecker Sample.plainDescriptor true
  = Ok (Parsed.mk None None (Some "void")) /\
  parseSchema Sample.schemaChecker Sample.plainDescriptor false = TypeError.
Proof.
  split; reflexivity.
Qed.
